(** * GLM / IRLS visualizer: a shallow embedding of
      [src/pages/statistics/GLM_IRLS_Visualizer.js]

    The file holds one React component, [GLMVisualizer], a helper component
    [Latex] and a hook [useKaTeX].  Hook state is modelled by explicit
    records, DOM effects by a small state monad over the page, and the
    third-party typesetter [window.katex] by an arbitrary implementation
    taken as a parameter. *)

From Stdlib Require Import ZArith List String Bool Lia.
Import ListNotations.
Open Scope Z_scope.
Open Scope string_scope.
Open Scope list_scope.

(** ** React's [useState] setter

    A setter accepts either the next value or an updater applied to the
    previous value; [nextStep] uses the second form and the row handlers the
    first. *)

Inductive SetStateAction (A : Type) : Type :=
| NextValue (v : A)
| Updater (f : A -> A).
Arguments NextValue {A} v.
Arguments Updater {A} f.

Definition applySetState {A : Type} (a : SetStateAction A) (prev : A) : A :=
  match a with
  | NextValue v => v
  | Updater f => f prev
  end.

(** ** The step descriptors (source lines 67-103) *)

Inductive IconComponent : Type :=
| Calculator | TrendingUp | Scale | RefreshCw | CheckCircle | ArrowRight.

Record Icon : Type := mkIcon {
  component : IconComponent;
  className : string
}.

Record Step : Type := mkStep {
  id : Z;
  title : string;
  icon : Icon;
  desc : string;
  math : string
}.

Definition steps : list Step :=
  [ {| id := 1;
       title := "初期化 (Initialization)";
       icon := mkIcon Calculator "w-6 h-6 text-blue-500";
       desc := "パラメータの初期値を設定します。";
       math := "\beta^{(0)}" |};
    {| id := 2;
       title := "線形予測子 & 平均 (Predict)";
       icon := mkIcon TrendingUp "w-6 h-6 text-indigo-500";
       desc := "現在のパラメータで予測値を計算します。";
       math := "\eta = X\beta, \quad \mu = g^{-1}(\eta)" |};
    {| id := 3;
       title := "作動変数 & 重み (Adjust)";
       icon := mkIcon Scale "w-6 h-6 text-amber-500";
       desc := "局所的な直線近似のために、ターゲット変数(z)と重み(W)を計算します。";
       math := "z, \quad W" |};
    {| id := 4;
       title := "WLSによる更新 (Update)";
       icon := mkIcon RefreshCw "w-6 h-6 text-emerald-500";
       desc := "重みつき最小二乗法(WLS)を解いて、パラメータを更新します。";
       math := "\beta^{(new)} = (X^T W X)^{-1} X^T W z" |};
    {| id := 5;
       title := "収束判定 (Check)";
       icon := mkIcon CheckCircle "w-6 h-6 text-purple-500";
       desc := "パラメータの変化が十分に小さければ終了。そうでなければステップ2へ戻ります。";
       math := "|\beta^{(new)} - \beta^{(old)}| < \epsilon" |} ].

(** [steps.length] as a JavaScript number. *)
Definition steps_length : Z := Z.of_nat (List.length steps).

(** ** Hook state of one [GLMVisualizer] instance

    [activeStep] comes from [useState(0)] (line 64) and [isKaTeXLoaded] from
    the [useState(false)] inside [useKaTeX] (line 8). *)

Record Hooks : Type := mkHooks {
  activeStep : Z;
  isKaTeXLoaded : bool
}.

Definition initialHooks : Hooks :=
  {| activeStep := 0; isKaTeXLoaded := false |}.

(** ** The page: what the code touches outside React *)

Record Exn : Type := mkExn {
  exn_name : string;
  exn_message : string
}.

(** Content of the [span] a [Latex] instance owns: the text node React
    mounts, or whatever the typesetter wrote. *)
Inductive Container : Type :=
| PlainText (s : string)
| Typeset (markup : string).

Record RenderOptions : Type := mkRenderOptions {
  opt_displayMode : bool;
  throwOnError : bool
}.

(** [window.katex].  Its [render] mutates the node it is given and either
    returns or throws; the node after the call is part of the outcome in
    both cases. *)
Record KaTeX : Type := mkKaTeX {
  render : string -> Container -> RenderOptions -> Container * option Exn
}.

(** A callback stored on a DOM element; the only one in the source is
    [() => setIsLoaded(true)] (line 28). *)
Inductive Callback : Type :=
| CallSetIsLoaded (a : SetStateAction bool).

Record Element : Type := mkElement {
  tagName : string;
  rel : string;
  href : string;
  src : string;
  integrity : string;
  crossOrigin : string;
  onload : option Callback
}.

Definition createElement (tag : string) : Element :=
  {| tagName := tag; rel := ""; href := ""; src := ""; integrity := "";
     crossOrigin := ""; onload := None |}.

Definition set_rel (v : string) (e : Element) : Element :=
  mkElement (tagName e) v (href e) (src e) (integrity e) (crossOrigin e) (onload e).
Definition set_href (v : string) (e : Element) : Element :=
  mkElement (tagName e) (rel e) v (src e) (integrity e) (crossOrigin e) (onload e).
Definition set_src (v : string) (e : Element) : Element :=
  mkElement (tagName e) (rel e) (href e) v (integrity e) (crossOrigin e) (onload e).
Definition set_integrity (v : string) (e : Element) : Element :=
  mkElement (tagName e) (rel e) (href e) (src e) v (crossOrigin e) (onload e).
Definition set_crossOrigin (v : string) (e : Element) : Element :=
  mkElement (tagName e) (rel e) (href e) (src e) (integrity e) v (onload e).
Definition set_onload (v : Callback) (e : Element) : Element :=
  mkElement (tagName e) (rel e) (href e) (src e) (integrity e) (crossOrigin e) (Some v).

Record Page : Type := mkPage {
  window_katex : option KaTeX;            (* [window.katex], undefined = None *)
  document_head : list Element;           (* children of [document.head], in order *)
  console : list (string * Exn);          (* [console.error] entries, oldest first *)
  katex_calls : list (string * RenderOptions)  (* trace of [katex.render] calls *)
}.

Definition emptyPage : Page :=
  {| window_katex := None; document_head := []; console := []; katex_calls := [] |}.

(** The world of a [GLMVisualizer] instance. *)
Record World : Type := mkWorld {
  page : Page;
  hooks : Hooks
}.

(** The world of one [Latex] instance: the page and its [containerRef]. *)
Record LatexWorld : Type := mkLatexWorld {
  lpage : Page;
  containerRef : option Container
}.

(** ** Effects: state passing with exceptions *)

Inductive Result (A : Type) : Type :=
| Returned (a : A)
| Thrown (e : Exn).
Arguments Returned {A} a.
Arguments Thrown {A} e.

Definition Eff (S A : Type) : Type := S -> Result A * S.

Definition ret {S A : Type} (a : A) : Eff S A := fun s => (Returned a, s).

Definition bind {S A B : Type} (m : Eff S A) (k : A -> Eff S B) : Eff S B :=
  fun s =>
    match m s with
    | (Returned a, s') => k a s'
    | (Thrown e, s') => (Thrown e, s')
    end.

Definition throw {S A : Type} (e : Exn) : Eff S A := fun s => (Thrown e, s).

Definition tryCatch {S A : Type} (body : Eff S A) (handler : Exn -> Eff S A) : Eff S A :=
  fun s =>
    match body s with
    | (Returned a, s') => (Returned a, s')
    | (Thrown e, s') => handler e s'
    end.

Definition gets {S A : Type} (f : S -> A) : Eff S A := fun s => (Returned (f s), s).

Definition modify {S : Type} (f : S -> S) : Eff S unit := fun s => (Returned tt, f s).

Declare Scope eff_scope.
Delimit Scope eff_scope with eff.
Notation "x <- m ;; k" := (bind m (fun x => k))
  (at level 61, m at next level, right associativity) : eff_scope.
Notation "m ;; k" := (bind m (fun _ => k))
  (at level 61, right associativity) : eff_scope.
Open Scope eff_scope.

(** The world an effect leaves behind when it returns normally. *)
Definition exec {S A : Type} (m : Eff S A) (s : S) : option S :=
  match m s with
  | (Returned _, s') => Some s'
  | (Thrown _, _) => None
  end.

(** ** State setters *)

Definition setActiveStep (a : SetStateAction Z) : Eff World unit :=
  modify (fun w =>
    {| page := page w;
       hooks := {| activeStep := applySetState a (activeStep (hooks w));
                   isKaTeXLoaded := isKaTeXLoaded (hooks w) |} |}).

Definition setIsLoaded (a : SetStateAction bool) : Eff World unit :=
  modify (fun w =>
    {| page := page w;
       hooks := {| activeStep := activeStep (hooks w);
                   isKaTeXLoaded := applySetState a (isKaTeXLoaded (hooks w)) |} |}).

(** [nextStep] (lines 105-107).  JavaScript's [%] truncates towards zero,
    which is [Z.rem]. *)
Definition nextStep : Eff World unit :=
  setActiveStep (Updater (fun prev => Z.rem (prev + 1) steps_length)).

(** ** [useKaTeX] (lines 7-38) *)

Definition katex_css_href : string :=
  "https://cdn.jsdelivr.net/npm/katex@0.16.9/dist/katex.min.css".
Definition katex_css_integrity : string :=
  "sha384-n8MVd4RsNIU0tAv4ct0nTaAbDJwPJzDEaqSD1odI+WdtXRGWt2kTvGFasHpSy3SV".
Definition katex_js_src : string :=
  "https://cdn.jsdelivr.net/npm/katex@0.16.9/dist/katex.min.js".
Definition katex_js_integrity : string :=
  "sha384-XjKyOOlGwcjNTAIQHIpgOno0Hl1YQqzUOEleOLALmuqehneUG+vnGctmUb0ZY0l8".

Definition truthy {A : Type} (v : option A) : bool :=
  match v with Some _ => true | None => false end.

(** [document.head.appendChild(e)] *)
Definition head_appendChild (e : Element) : Eff World unit :=
  modify (fun w =>
    {| page := {| window_katex := window_katex (page w);
                  document_head := document_head (page w) ++ [e];
                  console := console (page w);
                  katex_calls := katex_calls (page w) |};
       hooks := hooks w |}).

(** The body of the [useEffect] callback, lines 11-29.  The cleanup it
    returns (lines 31-34) is empty. *)
Definition useKaTeX_effect : Eff World unit :=
  k <- gets (fun w => window_katex (page w)) ;;
  if truthy k then
    setIsLoaded (NextValue true)
  else
    let link := createElement "link" in
    let link := set_rel "stylesheet" link in
    let link := set_href katex_css_href link in
    let link := set_integrity katex_css_integrity link in
    let link := set_crossOrigin "anonymous" link in
    head_appendChild link ;;
    let script := createElement "script" in
    let script := set_src katex_js_src script in
    let script := set_integrity katex_js_integrity script in
    let script := set_crossOrigin "anonymous" script in
    let script := set_onload (CallSetIsLoaded (NextValue true)) script in
    head_appendChild script.

(** The two elements a run of the effect can append. *)
Definition katex_link : Element :=
  {| tagName := "link"; rel := "stylesheet"; href := katex_css_href; src := "";
     integrity := katex_css_integrity; crossOrigin := "anonymous";
     onload := None |}.

Definition katex_script : Element :=
  {| tagName := "script"; rel := ""; href := ""; src := katex_js_src;
     integrity := katex_js_integrity; crossOrigin := "anonymous";
     onload := Some (CallSetIsLoaded (NextValue true)) |}.

(** The browser finishing the load of a script element: the script has run
    and defined [window.katex], then the element's [onload] fires. *)
Definition runCallback (c : option Callback) : Eff World unit :=
  match c with
  | Some (CallSetIsLoaded a) => setIsLoaded a
  | None => ret tt
  end.

Definition scriptLoaded (impl : KaTeX) (e : Element) : Eff World unit :=
  modify (fun w =>
    {| page := {| window_katex := Some impl;
                  document_head := document_head (page w);
                  console := console (page w);
                  katex_calls := katex_calls (page w) |};
       hooks := hooks w |}) ;;
  runCallback (onload e).

(** How many elements of the head fetch a given address. *)
Definition fetches (url : string) (e : Element) : bool :=
  String.eqb (href e) url || String.eqb (src e) url.

Definition loads_of (url : string) (p : Page) : nat :=
  List.length (filter (fetches url) (document_head p)).

(** ** [Latex] (lines 43-61) *)

Record LatexProps : Type := mkLatexProps {
  children : string;
  displayMode : bool;
  isLoaded : bool
}.

(** What the component returns (line 60). *)
Record SpanElement : Type := mkSpan {
  span_className : string;
  span_children : string
}.

Definition Latex (p : LatexProps) : SpanElement :=
  {| span_className :=
       if displayMode p then "block my-2 overflow-x-auto overflow-y-hidden" else "";
     span_children := children p |}.

(** React mounting the span: one text node holding its child string. *)
Definition mount (s : SpanElement) : Container := PlainText (span_children s).

(** [window.katex.render(s, containerRef.current, opts)]: the call is
    traced, the node behind the ref takes what the typesetter left in it. *)
Definition katex_render (k : KaTeX) (s : string) (node : Container)
    (opts : RenderOptions) : Eff LatexWorld unit :=
  fun w =>
    let out := render k s node opts in
    let w' :=
      {| lpage := {| window_katex := window_katex (lpage w);
                     document_head := document_head (lpage w);
                     console := console (lpage w);
                     katex_calls := katex_calls (lpage w) ++ [(s, opts)] |};
         containerRef := Some (fst out) |} in
    match snd out with
    | None => (Returned tt, w')
    | Some e => (Thrown e, w')
    end.

Definition console_error (msg : string) (e : Exn) : Eff LatexWorld unit :=
  modify (fun w =>
    {| lpage := {| window_katex := window_katex (lpage w);
                   document_head := document_head (lpage w);
                   console := console (lpage w) ++ [(msg, e)];
                   katex_calls := katex_calls (lpage w) |};
       containerRef := containerRef w |}).

(** [containerRef.current.innerText = s]; assigning through a null ref is a
    [TypeError]. *)
Definition set_innerText (s : string) : Eff LatexWorld unit :=
  fun w =>
    match containerRef w with
    | Some _ => (Returned tt, {| lpage := lpage w; containerRef := Some (PlainText s) |})
    | None => (Thrown (mkExn "TypeError" "Cannot set properties of null"), w)
    end.

(** The body of the [useEffect] callback, lines 47-57. *)
Definition Latex_effect (p : LatexProps) : Eff LatexWorld unit :=
  k <- gets (fun w => window_katex (lpage w)) ;;
  c <- gets containerRef ;;
  if isLoaded p then
    match k with
    | Some katex =>
        match c with
        | Some node =>
            tryCatch
              (katex_render katex (children p) node
                 {| opt_displayMode := displayMode p; throwOnError := false |})
              (fun e =>
                 console_error "KaTeX render error:" e ;;
                 set_innerText (children p))
        | None => ret tt
        end
    | None => ret tt
    end
  else ret tt.

(** ** [GLMVisualizer] (lines 63-246): the interactive part of the view *)

(** [Array.prototype.map] with the callback's index argument. *)
Fixpoint map_from {A B : Type} (f : A -> Z -> B) (i : Z) (l : list A) : list B :=
  match l with
  | [] => []
  | x :: t => f x i :: map_from f (i + 1) t
  end.

Definition array_map {A B : Type} (f : A -> Z -> B) (l : list A) : list B :=
  map_from f 0 l.

Record StepRow : Type := mkStepRow {
  key : Z;
  onClick : Eff World unit;
  highlighted : bool;              (* [activeStep === index] *)
  row_step : Step;                 (* source of icon, heading and text *)
  row_latex : LatexProps
}.

Record View : Type := mkView {
  rows : list StepRow;
  button_onClick : Eff World unit
}.

Definition GLMVisualizer (h : Hooks) : View :=
  {| rows :=
       array_map
         (fun step index =>
            {| key := id step;
               onClick := setActiveStep (NextValue index);
               highlighted := Z.eqb (activeStep h) index;
               row_step := step;
               row_latex := {| children := math step; displayMode := false;
                               isLoaded := isKaTeXLoaded h |} |})
         steps;
     button_onClick := nextStep |}.

(** User events on the rendered view.  A row can be clicked only if it was
    rendered. *)
Inductive UIEvent : Type :=
| ClickNext
| ClickRow (n : nat).

Definition dispatch (e : UIEvent) (w : World) : option World :=
  match e with
  | ClickNext => exec (button_onClick (GLMVisualizer (hooks w))) w
  | ClickRow n =>
      match nth_error (rows (GLMVisualizer (hooks w))) n with
      | Some r => exec (onClick r) w
      | None => None
      end
  end.

Inductive reachable (w0 : World) : World -> Prop :=
| reach_start : reachable w0 w0
| reach_event : forall w e w',
    reachable w0 w -> dispatch e w = Some w' -> reachable w0 w'.

Definition initialWorld (p : Page) : World :=
  {| page := p; hooks := initialHooks |}.

Fixpoint dispatch_all (es : list UIEvent) (w : World) : option World :=
  match es with
  | [] => Some w
  | e :: es' =>
      match dispatch e w with
      | Some w' => dispatch_all es' w'
      | None => None
      end
  end.

(** ** A sample typesetter

    It empties the node it is given and then throws, on every input. *)
Definition failing_katex : KaTeX :=
  {| render := fun _ _ _ => (Typeset "", Some (mkExn "Error" "render failed")) |}.

Definition failing_world : LatexWorld :=
  {| lpage := {| window_katex := Some failing_katex; document_head := [];
                 console := []; katex_calls := [] |};
     containerRef := Some (PlainText "\frac{a}{") |}.

(** A typesetter that always succeeds, writing markup derived from its
    input. *)
Definition echo_katex : KaTeX :=
  {| render := fun s _ _ => (Typeset s, None) |}.

(** ** The condition of the [Latex] effect (line 47) *)

Definition latex_guard (p : LatexProps) (w : LatexWorld) : bool :=
  isLoaded p && truthy (window_katex (lpage w)) && truthy (containerRef w).

Definition latex_options (p : LatexProps) : RenderOptions :=
  {| opt_displayMode := displayMode p; throwOnError := false |}.

(** ** The exposition column (lines 186-241)

    The [Latex] uses outside the step rows, in document order.  An attribute
    left out in the JSX takes the default of the parameter list of [Latex]
    (line 43): [displayMode = false]. *)

Record LatexAttrs : Type := mkLatexAttrs {
  attr_children : string;
  attr_displayMode : option bool;
  attr_isLoaded : bool
}.

Definition withDefaults (a : LatexAttrs) : LatexProps :=
  {| children := attr_children a;
     displayMode := match attr_displayMode a with Some b => b | None => false end;
     isLoaded := attr_isLoaded a |}.

Definition exposition (h : Hooks) : list LatexProps :=
  map withDefaults
    [ mkLatexAttrs "\eta" None (isKaTeXLoaded h);
      mkLatexAttrs "\mu" None (isKaTeXLoaded h);
      mkLatexAttrs "g" None (isKaTeXLoaded h);
      mkLatexAttrs "\eta_i = \mathbf{x}_i^T \beta, \quad \eta_i = g(\mu_i)"
        (Some true) (isKaTeXLoaded h);
      mkLatexAttrs "z" None (isKaTeXLoaded h);
      mkLatexAttrs "z_i = \eta_i + (y_i - \mu_i) \frac{d\eta_i}{d\mu_i}"
        (Some true) (isKaTeXLoaded h);
      mkLatexAttrs "W" None (isKaTeXLoaded h);
      mkLatexAttrs "V(\mu)" None (isKaTeXLoaded h);
      mkLatexAttrs "W_{ii} = \frac{1}{Var(Y_i)} \left( \frac{d\mu_i}{d\eta_i} \right)^2"
        (Some true) (isKaTeXLoaded h);
      mkLatexAttrs "\beta^{(t+1)} = (X^T W^{(t)} X)^{-1} X^T W^{(t)} \mathbf{z}^{(t)}"
        (Some true) (isKaTeXLoaded h);
      mkLatexAttrs "W" None (isKaTeXLoaded h);
      mkLatexAttrs "z" None (isKaTeXLoaded h) ].

(** Every [Latex] instance of the rendered component, rows first. *)
Definition formulas (h : Hooks) : list LatexProps :=
  map row_latex (rows (GLMVisualizer h)) ++ exposition h.

(** The rows drawn in the highlighted style. *)
Definition highlighted_rows (h : Hooks) : list StepRow :=
  filter highlighted (rows (GLMVisualizer h)).

(** ** The life of one mounted instance

    Besides the user's clicks, React may run the loader effect (again, when
    the instance is remounted), and the browser may finish loading a script
    element that sits in the head, which makes the library [impl] it
    carries available. *)

Inductive LifeEvent : Type :=
| UserClick (e : UIEvent)
| LoaderRuns
| ScriptLoads (impl : KaTeX) (n : nat).

Definition life_step (ev : LifeEvent) (w : World) : option World :=
  match ev with
  | UserClick e => dispatch e w
  | LoaderRuns => exec useKaTeX_effect w
  | ScriptLoads impl n =>
      match nth_error (document_head (page w)) n with
      | Some el =>
          if String.eqb (tagName el) "script"
          then exec (scriptLoaded impl el) w
          else None
      | None => None
      end
  end.

Inductive life_reachable : World -> Prop :=
| life_start : life_reachable (initialWorld emptyPage)
| life_next : forall w ev w',
    life_reachable w -> life_step ev w = Some w' -> life_reachable w'.

(** [n] copies of the pair the loader appends. *)
Fixpoint loader_pairs (n : nat) : list Element :=
  match n with
  | O => []
  | S n' => katex_link :: katex_script :: loader_pairs n'
  end.

(** What every world of an instance's life satisfies. *)
Definition life_invariant (w : World) : Prop :=
  0 <= activeStep (hooks w) <= 4 /\
  (isKaTeXLoaded (hooks w) = true -> truthy (window_katex (page w)) = true) /\
  (exists n, document_head (page w) = loader_pairs n).

(** A row event that addresses a rendered row. *)
Definition valid_event (e : UIEvent) : bool :=
  match e with
  | ClickNext => true
  | ClickRow n => Nat.ltb n (List.length steps)
  end.

(** * Properties *)

Example nextStep_from_4 :
  option_map (fun w => activeStep (hooks w))
             (exec nextStep (mkWorld emptyPage (mkHooks 4 false))) = Some 0.
Proof. reflexivity. Qed.

Example nextStep_from_negative :
  option_map (fun w => activeStep (hooks w))
             (exec nextStep (mkWorld emptyPage (mkHooks (-3) false))) = Some (-2).
Proof. reflexivity. Qed.

(** ** The descriptor sequence *)

Lemma steps_length_5 : steps_length = 5.
Proof. reflexivity. Qed.

Lemma nth_error_map_from {A B : Type} (f : A -> Z -> B) (l : list A) :
  forall (i : Z) (n : nat),
    nth_error (map_from f i l) n =
    option_map (fun x => f x (i + Z.of_nat n)) (nth_error l n).
Proof.
  induction l as [|x t IH]; intros i n.
  - destruct n; reflexivity.
  - destruct n as [|n].
    + cbn. now rewrite Z.add_0_r.
    + cbn [map_from nth_error]. rewrite IH.
      replace (i + Z.of_nat (S n)) with (i + 1 + Z.of_nat n) by lia.
      reflexivity.
Qed.

Lemma map_row_step_map_from (g : Step -> Z -> StepRow) (l : list Step) :
  (forall s i, row_step (g s i) = s) ->
  forall i, map row_step (map_from g i l) = l.
Proof.
  intros Hg. induction l as [|x t IH]; intros i; cbn; [reflexivity|].
  now rewrite Hg, IH.
Qed.

Lemma rendered_steps (h : Hooks) :
  map row_step (rows (GLMVisualizer h)) = steps.
Proof.
  unfold GLMVisualizer, array_map; cbn [rows].
  apply map_row_step_map_from. reflexivity.
Qed.

(** A rendered row exists exactly for the positions of [steps], and its
    handler stores that position. *)
Lemma rendered_row (h : Hooks) (n : nat) (r : StepRow) :
  nth_error (rows (GLMVisualizer h)) n = Some r ->
  (n < 5)%nat /\ onClick r = setActiveStep (NextValue (Z.of_nat n)).
Proof.
  unfold GLMVisualizer, array_map; cbn [rows].
  rewrite nth_error_map_from. intros H.
  destruct (nth_error steps n) as [s|] eqn:Hs; [|discriminate].
  split.
  - change 5%nat with (List.length steps).
    apply nth_error_Some. congruence.
  - cbn in H. injection H as <-. reflexivity.
Qed.

Lemma row_rendered (h : Hooks) (n : nat) :
  (n < 5)%nat ->
  exists r, nth_error (rows (GLMVisualizer h)) n = Some r /\
            onClick r = setActiveStep (NextValue (Z.of_nat n)).
Proof.
  intros Hn. unfold GLMVisualizer, array_map; cbn [rows].
  rewrite nth_error_map_from.
  destruct (nth_error steps n) as [s|] eqn:Hs.
  - eexists. split; reflexivity.
  - apply nth_error_None in Hs. change (List.length steps) with 5%nat in Hs. lia.
Qed.

(** ** What the two handlers do to the world *)

Lemma exec_setActiveStep (a : SetStateAction Z) (w : World) :
  exec (setActiveStep a) w =
  Some {| page := page w;
          hooks := {| activeStep := applySetState a (activeStep (hooks w));
                      isKaTeXLoaded := isKaTeXLoaded (hooks w) |} |}.
Proof. reflexivity. Qed.

Lemma dispatch_ClickNext (w : World) :
  dispatch ClickNext w =
  Some {| page := page w;
          hooks := {| activeStep := Z.rem (activeStep (hooks w) + 1) 5;
                      isKaTeXLoaded := isKaTeXLoaded (hooks w) |} |}.
Proof. reflexivity. Qed.

Lemma dispatch_ClickRow (n : nat) (w w' : World) :
  dispatch (ClickRow n) w = Some w' ->
  (n < 5)%nat /\
  w' = {| page := page w;
          hooks := {| activeStep := Z.of_nat n;
                      isKaTeXLoaded := isKaTeXLoaded (hooks w) |} |}.
Proof.
  unfold dispatch.
  destruct (nth_error (rows (GLMVisualizer (hooks w))) n) as [r|] eqn:Hr;
    [|discriminate].
  apply rendered_row in Hr. destruct Hr as [Hn Hr].
  rewrite Hr, exec_setActiveStep. intros H. injection H as <-. now split.
Qed.

Lemma rem_succ_5 (i : Z) :
  0 <= i <= 4 -> Z.rem (i + 1) 5 = (i + 1) mod 5.
Proof. intros Hi. apply Z.rem_mod_nonneg; lia. Qed.

(** C1: for a cursor i in 0..4 the "next" button always fires and stores
    (i + 1) mod 5; from the last step, 4, it stores 0. *)
Theorem nextStep_advances_mod_5 (w : World) :
  0 <= activeStep (hooks w) <= 4 ->
  exists w',
    dispatch ClickNext w = Some w' /\
    activeStep (hooks w') = (activeStep (hooks w) + 1) mod 5 /\
    (activeStep (hooks w) = 4 -> activeStep (hooks w') = 0).
Proof.
  intros Hi. eexists. split; [apply dispatch_ClickNext|].
  cbn [hooks activeStep]. split.
  - now apply rem_succ_5.
  - intros ->. reflexivity.
Qed.

Lemma nextStep_advances_mod_5_witness :
  exists w',
    dispatch ClickNext (mkWorld emptyPage (mkHooks 4 false)) = Some w' /\
    activeStep (hooks w') = (4 + 1) mod 5 /\
    (4 = 4 -> activeStep (hooks w') = 0).
Proof.
  apply (nextStep_advances_mod_5 (mkWorld emptyPage (mkHooks 4 false))).
  cbn. lia.
Defined.

(** C3: from the initial state (cursor 0), on any page, every state reached
    through clicks on "next" and on step rows has its cursor in 0..4. *)
Theorem activeStep_in_bounds (p : Page) (w : World) :
  reachable (initialWorld p) w -> 0 <= activeStep (hooks w) <= 4.
Proof.
  induction 1 as [|w e w' _ IH Hd].
  - cbn. lia.
  - destruct e as [|n].
    + rewrite dispatch_ClickNext in Hd. injection Hd as <-.
      cbn [hooks activeStep]. rewrite rem_succ_5 by exact IH.
      pose proof (Z.mod_pos_bound (activeStep (hooks w) + 1) 5). lia.
    + apply dispatch_ClickRow in Hd. destruct Hd as [Hn ->].
      cbn [hooks activeStep]. lia.
Qed.

Lemma activeStep_in_bounds_witness :
  0 <= activeStep (hooks (mkWorld emptyPage (mkHooks 0 false))) <= 4.
Proof.
  apply (activeStep_in_bounds emptyPage).
  apply reach_event with (w := mkWorld emptyPage (mkHooks 4 false)) (e := ClickNext);
    [|reflexivity].
  apply reach_event with (w := initialWorld emptyPage) (e := ClickRow 4);
    [|reflexivity].
  apply reach_start.
Defined.

(** C4: for every row position j in 0..4 and every world, whatever its
    cursor, the click on row j fires and leaves the cursor equal to j. *)
Theorem row_click_sets_cursor (j : nat) (w : World) :
  (j < 5)%nat ->
  exists w',
    dispatch (ClickRow j) w = Some w' /\ activeStep (hooks w') = Z.of_nat j.
Proof.
  intros Hj. destruct (row_rendered (hooks w) j Hj) as [r [Hr Hc]].
  unfold dispatch. rewrite Hr, Hc, exec_setActiveStep.
  eexists. split; reflexivity.
Qed.

Lemma row_click_sets_cursor_witness :
  exists w',
    dispatch (ClickRow 2) (mkWorld emptyPage (mkHooks (-7) true)) = Some w' /\
    activeStep (hooks w') = Z.of_nat 2.
Proof.
  apply (row_click_sets_cursor 2 (mkWorld emptyPage (mkHooks (-7) true))).
  lia.
Defined.

(** C5: [steps] is a constant list of exactly five descriptors (each a
    record of id, title, icon, description and math string) whose ids are
    1, 2, 3, 4, 5 in this order; in every hook state the component renders
    exactly this list, in this order, keyed by the ids, so no operation adds,
    drops or reorders a descriptor. *)
Theorem steps_fixed_five :
  List.length steps = 5%nat /\
  map id steps = [1; 2; 3; 4; 5] /\
  (forall h : Hooks, map row_step (rows (GLMVisualizer h)) = steps) /\
  (forall h : Hooks, map key (rows (GLMVisualizer h)) = [1; 2; 3; 4; 5]).
Proof.
  split; [reflexivity|]. split; [reflexivity|]. split.
  - apply rendered_steps.
  - intros h. reflexivity.
Qed.

(** C8: from a cursor in 0..4, five clicks on "next" in a row all fire and
    give back the very same world, cursor included. *)
Theorem nextStep_five_times_identity (w : World) :
  0 <= activeStep (hooks w) <= 4 ->
  dispatch_all (repeat ClickNext 5) w = Some w.
Proof.
  destruct w as [p [a l]]. cbn [hooks activeStep]. intros Ha.
  cbn [repeat dispatch_all]. rewrite !dispatch_ClickNext.
  cbn [page hooks activeStep isKaTeXLoaded].
  assert (Hcase : a = 0 \/ a = 1 \/ a = 2 \/ a = 3 \/ a = 4) by lia.
  destruct Hcase as [-> | [-> | [-> | [-> | ->]]]]; reflexivity.
Qed.

Lemma nextStep_five_times_identity_witness :
  dispatch_all (repeat ClickNext 5) (mkWorld emptyPage (mkHooks 3 true)) =
  Some (mkWorld emptyPage (mkHooks 3 true)).
Proof.
  apply (nextStep_five_times_identity (mkWorld emptyPage (mkHooks 3 true))).
  cbn. lia.
Defined.

(** C10: a click on "next" or on a step row leaves the page (head elements,
    [window.katex], console, typesetter calls) and the loaded flag as they
    were, and the descriptors rendered afterwards are those rendered before,
    namely [steps]; only the cursor may differ. *)
Theorem clicks_change_only_cursor (e : UIEvent) (w w' : World) :
  dispatch e w = Some w' ->
  page w' = page w /\
  isKaTeXLoaded (hooks w') = isKaTeXLoaded (hooks w) /\
  map row_step (rows (GLMVisualizer (hooks w'))) =
    map row_step (rows (GLMVisualizer (hooks w))) /\
  map row_step (rows (GLMVisualizer (hooks w'))) = steps.
Proof.
  intros Hd. rewrite !rendered_steps.
  destruct e as [|n].
  - rewrite dispatch_ClickNext in Hd. injection Hd as <-. repeat split.
  - apply dispatch_ClickRow in Hd. destruct Hd as [_ ->]. repeat split.
Qed.

Lemma clicks_change_only_cursor_witness :
  page (mkWorld emptyPage (mkHooks 1 true)) = page (mkWorld emptyPage (mkHooks 4 true)) /\
  isKaTeXLoaded (hooks (mkWorld emptyPage (mkHooks 1 true))) =
    isKaTeXLoaded (hooks (mkWorld emptyPage (mkHooks 4 true))) /\
  map row_step (rows (GLMVisualizer (hooks (mkWorld emptyPage (mkHooks 1 true))))) =
    map row_step (rows (GLMVisualizer (hooks (mkWorld emptyPage (mkHooks 4 true))))) /\
  map row_step (rows (GLMVisualizer (hooks (mkWorld emptyPage (mkHooks 1 true))))) = steps.
Proof.
  apply (clicks_change_only_cursor (ClickRow 1)
           (mkWorld emptyPage (mkHooks 4 true))
           (mkWorld emptyPage (mkHooks 1 true))).
  reflexivity.
Defined.

(** ** The loader *)

Lemma useKaTeX_effect_present (w : World) :
  truthy (window_katex (page w)) = true ->
  exec useKaTeX_effect w =
  Some {| page := page w;
          hooks := {| activeStep := activeStep (hooks w);
                      isKaTeXLoaded := true |} |}.
Proof.
  intros Hk. unfold useKaTeX_effect, exec, bind, gets.
  rewrite Hk. reflexivity.
Qed.

Lemma useKaTeX_effect_absent (w : World) :
  window_katex (page w) = None ->
  exec useKaTeX_effect w =
  Some {| page := {| window_katex := None;
                     document_head := document_head (page w) ++ [katex_link; katex_script];
                     console := console (page w);
                     katex_calls := katex_calls (page w) |};
          hooks := hooks w |}.
Proof.
  intros Hk. unfold useKaTeX_effect, exec, bind, gets.
  rewrite Hk. cbn. rewrite Hk, <- app_assoc. reflexivity.
Qed.

(** Once a script element has loaded, later runs of the effect append
    nothing. *)
Lemma useKaTeX_effect_after_load (impl : KaTeX) (e : Element) (w w1 w2 : World) :
  exec (scriptLoaded impl e) w = Some w1 ->
  exec useKaTeX_effect w1 = Some w2 ->
  document_head (page w2) = document_head (page w).
Proof.
  intros H1 H2.
  assert (Hw1 : window_katex (page w1) = Some impl /\
                document_head (page w1) = document_head (page w)).
  { unfold scriptLoaded, exec, bind, modify, runCallback in H1.
    destruct (onload e) as [[a]|]; cbn in H1; injection H1 as <-; now split. }
  destruct Hw1 as [Hk Hh].
  rewrite useKaTeX_effect_present in H2 by (rewrite Hk; reflexivity).
  injection H2 as <-. exact Hh.
Qed.

(** C7: a run of the loader effect always returns; what it appends to the
    head is either nothing (library present) or the same two elements,
    whose addresses and integrity hashes are the pinned katex@0.16.9
    jsdelivr ones, whatever the world it runs in. *)
Theorem loader_urls_fixed (w : World) :
  exists w',
    exec useKaTeX_effect w = Some w' /\
    document_head (page w') =
      document_head (page w) ++
      (if truthy (window_katex (page w)) then [] else [katex_link; katex_script]) /\
    href katex_link = "https://cdn.jsdelivr.net/npm/katex@0.16.9/dist/katex.min.css" /\
    integrity katex_link =
      "sha384-n8MVd4RsNIU0tAv4ct0nTaAbDJwPJzDEaqSD1odI+WdtXRGWt2kTvGFasHpSy3SV" /\
    src katex_script = "https://cdn.jsdelivr.net/npm/katex@0.16.9/dist/katex.min.js" /\
    integrity katex_script =
      "sha384-XjKyOOlGwcjNTAIQHIpgOno0Hl1YQqzUOEleOLALmuqehneUG+vnGctmUb0ZY0l8".
Proof.
  destruct (window_katex (page w)) as [k|] eqn:Hk.
  - eexists. split.
    + apply useKaTeX_effect_present. rewrite Hk. reflexivity.
    + cbn. rewrite app_nil_r. repeat split.
  - eexists. split.
    + apply useKaTeX_effect_absent. exact Hk.
    + cbn. repeat split.
Qed.

(** C6 fails on the code: the guard looks at [window.katex], which the
    script defines only once it has loaded.  Two runs of the effect on a
    fresh page, with no load in between, append the stylesheet link and the
    script twice each. *)
Theorem useKaTeX_effect_twice_loads_twice :
  exists w1 w2,
    exec useKaTeX_effect (initialWorld emptyPage) = Some w1 /\
    exec useKaTeX_effect w1 = Some w2 /\
    document_head (page w2) = [katex_link; katex_script; katex_link; katex_script] /\
    loads_of katex_js_src (page w2) = 2%nat /\
    loads_of katex_css_href (page w2) = 2%nat /\
    isKaTeXLoaded (hooks w2) = false.
Proof.
  do 2 eexists. split; [reflexivity|]. split; [reflexivity|].
  repeat split.
Qed.

(** ** The [Latex] effect *)

Lemma Latex_effect_skips (p : LatexProps) (w : LatexWorld) :
  isLoaded p = false \/ window_katex (lpage w) = None ->
  Latex_effect p w = (Returned tt, w).
Proof.
  intros H. unfold Latex_effect, bind, gets.
  destruct (isLoaded p); [|reflexivity].
  destruct H as [H|H]; [discriminate|].
  rewrite H. reflexivity.
Qed.

(** With the library loaded and the span mounted, a call that returns leaves
    in the span what the typesetter wrote, and the call is traced. *)
Lemma Latex_effect_typesets (katex : KaTeX) (p : LatexProps) (w : LatexWorld)
    (node node' : Container) :
  isLoaded p = true ->
  window_katex (lpage w) = Some katex ->
  containerRef w = Some node ->
  render katex (children p) node
    {| opt_displayMode := displayMode p; throwOnError := false |} = (node', None) ->
  exists w',
    Latex_effect p w = (Returned tt, w') /\
    containerRef w' = Some node' /\
    katex_calls (lpage w') =
      katex_calls (lpage w) ++
      [(children p, {| opt_displayMode := displayMode p; throwOnError := false |})].
Proof.
  intros Hl Hk Hc Hr.
  unfold Latex_effect, bind, gets, tryCatch, katex_render.
  rewrite Hl, Hk, Hc, Hr. cbn. eexists. repeat split.
Qed.

(** C2: when the library is loaded and the span is mounted, if
    [katex.render] throws on the math string, whatever it left in the span,
    the effect itself returns normally (the exception does not escape), the
    error is logged, and the span holds the raw string as plain text. *)
Theorem render_failure_shows_raw (katex : KaTeX) (p : LatexProps) (w : LatexWorld)
    (node node' : Container) (e : Exn) :
  isLoaded p = true ->
  window_katex (lpage w) = Some katex ->
  containerRef w = Some node ->
  render katex (children p) node
    {| opt_displayMode := displayMode p; throwOnError := false |} = (node', Some e) ->
  exists w',
    Latex_effect p w = (Returned tt, w') /\
    containerRef w' = Some (PlainText (children p)) /\
    console (lpage w') = console (lpage w) ++ [("KaTeX render error:", e)].
Proof.
  intros Hl Hk Hc Hr.
  unfold Latex_effect, bind, gets, tryCatch, katex_render.
  rewrite Hl, Hk, Hc, Hr. cbn. eexists. repeat split.
Qed.

Lemma render_failure_shows_raw_witness :
  exists w',
    Latex_effect (mkLatexProps "\frac{a}{" true true) failing_world = (Returned tt, w') /\
    containerRef w' = Some (PlainText "\frac{a}{") /\
    console (lpage w') =
      [("KaTeX render error:", mkExn "Error" "render failed")].
Proof.
  apply (render_failure_shows_raw failing_katex
           (mkLatexProps "\frac{a}{" true true) failing_world
           (PlainText "\frac{a}{") (Typeset "")
           (mkExn "Error" "render failed"));
    reflexivity.
Defined.

(** C9: while the load flag is false or [window.katex] is undefined, the
    effect does nothing at all (no typesetter call, span untouched), and
    the span React mounts holds the raw source string as its child; the
    effect changes anything only when the flag is true and the library is
    defined. *)
Theorem Latex_raw_until_loaded (p : LatexProps) (w : LatexWorld) :
  isLoaded p = false \/ window_katex (lpage w) = None ->
  Latex_effect p w = (Returned tt, w) /\
  span_children (Latex p) = children p /\
  mount (Latex p) = PlainText (children p) /\
  (forall w0 : LatexWorld,
      snd (Latex_effect p w0) <> w0 ->
      isLoaded p = true /\ truthy (window_katex (lpage w0)) = true).
Proof.
  intros H. split; [now apply Latex_effect_skips|].
  split; [reflexivity|]. split; [reflexivity|].
  intros w0 Hne.
  destruct (isLoaded p) eqn:Hl.
  - destruct (window_katex (lpage w0)) eqn:Hk; [now split|].
    exfalso. apply Hne. rewrite Latex_effect_skips; [reflexivity|now right].
  - exfalso. apply Hne. rewrite Latex_effect_skips; [reflexivity|now left].
Qed.

Lemma Latex_raw_until_loaded_witness :
  Latex_effect (mkLatexProps "\eta" false false) failing_world =
    (Returned tt, failing_world) /\
  span_children (Latex (mkLatexProps "\eta" false false)) = "\eta" /\
  mount (Latex (mkLatexProps "\eta" false false)) = PlainText "\eta" /\
  (forall w0 : LatexWorld,
      snd (Latex_effect (mkLatexProps "\eta" false false) w0) <> w0 ->
      isLoaded (mkLatexProps "\eta" false false) = true /\
      truthy (window_katex (lpage w0)) = true).
Proof.
  apply (Latex_raw_until_loaded (mkLatexProps "\eta" false false) failing_world).
  left. reflexivity.
Defined.

(** * Further properties of the [Latex] effect *)

Lemma Latex_effect_guard_false (p : LatexProps) (w : LatexWorld) :
  latex_guard p w = false -> Latex_effect p w = (Returned tt, w).
Proof.
  unfold latex_guard, Latex_effect, bind, gets. intros H.
  destruct (isLoaded p); [|reflexivity].
  destruct (window_katex (lpage w)); [|reflexivity].
  destruct (containerRef w); [discriminate|reflexivity].
Qed.

(** The world after a run whose guard holds, in closed form. *)
Lemma Latex_effect_guard_true (p : LatexProps) (w : LatexWorld)
    (katex : KaTeX) (node : Container) :
  isLoaded p = true ->
  window_katex (lpage w) = Some katex ->
  containerRef w = Some node ->
  Latex_effect p w =
  (Returned tt,
   {| lpage :=
        {| window_katex := window_katex (lpage w);
           document_head := document_head (lpage w);
           console :=
             console (lpage w) ++
             match snd (render katex (children p) node (latex_options p)) with
             | Some e => [("KaTeX render error:", e)]
             | None => []
             end;
           katex_calls := katex_calls (lpage w) ++ [(children p, latex_options p)] |};
      containerRef :=
        Some match snd (render katex (children p) node (latex_options p)) with
             | Some _ => PlainText (children p)
             | None => fst (render katex (children p) node (latex_options p))
             end |}).
Proof.
  intros Hl Hk Hc.
  unfold Latex_effect, bind, gets, tryCatch, katex_render, latex_options.
  rewrite Hl, Hk, Hc.
  destruct (render katex (children p) node
              {| opt_displayMode := displayMode p; throwOnError := false |})
    as [node' [e|]]; cbn; rewrite ?Hk; [reflexivity|].
  rewrite app_nil_r. reflexivity.
Qed.

Lemma latex_guard_true (p : LatexProps) (w : LatexWorld) :
  latex_guard p w = true ->
  isLoaded p = true /\
  (exists katex, window_katex (lpage w) = Some katex) /\
  (exists node, containerRef w = Some node).
Proof.
  unfold latex_guard. intros H.
  destruct (isLoaded p); [|discriminate].
  destruct (window_katex (lpage w)) as [k|]; [|discriminate].
  destruct (containerRef w) as [n|]; [|discriminate].
  repeat split; eexists; reflexivity.
Qed.

(** X1: a run of the effect never lets an exception out, in any world and
    for any typesetter: neither a throwing [katex.render], nor a missing
    library, nor a null ref makes it throw. *)
Theorem Latex_effect_never_throws (p : LatexProps) (w : LatexWorld) :
  exists w', Latex_effect p w = (Returned tt, w').
Proof.
  destruct (latex_guard p w) eqn:Hg.
  - apply latex_guard_true in Hg. destruct Hg as [Hl [[k Hk] [n Hn]]].
    eexists. apply (Latex_effect_guard_true p w k n Hl Hk Hn).
  - eexists. apply Latex_effect_guard_false. exact Hg.
Qed.

(** X2: a run of the effect leaves [window.katex] and the head of the
    document as they were, and a mounted span stays mounted (a null ref
    stays null). *)
Theorem Latex_effect_frame (p : LatexProps) (w : LatexWorld) :
  window_katex (lpage (snd (Latex_effect p w))) = window_katex (lpage w) /\
  document_head (lpage (snd (Latex_effect p w))) = document_head (lpage w) /\
  truthy (containerRef (snd (Latex_effect p w))) = truthy (containerRef w).
Proof.
  destruct (latex_guard p w) eqn:Hg.
  - apply latex_guard_true in Hg. destruct Hg as [Hl [[k Hk] [n Hn]]].
    rewrite (Latex_effect_guard_true p w k n Hl Hk Hn). cbn.
    rewrite Hn. repeat split.
  - rewrite Latex_effect_guard_false by exact Hg. repeat split.
Qed.

(** X3: a run calls [katex.render] exactly once when the flag is set, the
    library is defined and the span is mounted, and not at all otherwise;
    the call passes the children string, the [displayMode] of the props and
    [throwOnError: false]. *)
Theorem Latex_effect_render_calls (p : LatexProps) (w : LatexWorld) :
  katex_calls (lpage (snd (Latex_effect p w))) =
  katex_calls (lpage w) ++
  (if latex_guard p w
   then [(children p, {| opt_displayMode := displayMode p; throwOnError := false |})]
   else []).
Proof.
  destruct (latex_guard p w) eqn:Hg.
  - apply latex_guard_true in Hg. destruct Hg as [Hl [[k Hk] [n Hn]]].
    rewrite (Latex_effect_guard_true p w k n Hl Hk Hn). reflexivity.
  - rewrite Latex_effect_guard_false by exact Hg. now rewrite app_nil_r.
Qed.

(** X4: a run logs at most one console entry, and whenever it logs one the
    span ends up holding the raw children string as plain text. *)
Theorem Latex_effect_log_means_fallback (p : LatexProps) (w : LatexWorld) :
  console (lpage (snd (Latex_effect p w))) = console (lpage w) \/
  (exists e,
     console (lpage (snd (Latex_effect p w))) =
       console (lpage w) ++ [("KaTeX render error:", e)] /\
     containerRef (snd (Latex_effect p w)) = Some (PlainText (children p))).
Proof.
  destruct (latex_guard p w) eqn:Hg.
  - apply latex_guard_true in Hg. destruct Hg as [Hl [[k Hk] [n Hn]]].
    rewrite (Latex_effect_guard_true p w k n Hl Hk Hn). cbn.
    destruct (snd (render k (children p) n (latex_options p))) as [e|].
    + right. exists e. split; reflexivity.
    + left. now rewrite app_nil_r.
  - left. rewrite Latex_effect_guard_false by exact Hg. reflexivity.
Qed.

(** X5: with the flag set, the library defined and the span mounted, a
    call of [katex.render] that returns leaves the typesetter's output in the
    span, logs nothing, and is the only call the run makes. *)
Theorem render_success_typesets (katex : KaTeX) (p : LatexProps) (w : LatexWorld)
    (node node' : Container) :
  isLoaded p = true ->
  window_katex (lpage w) = Some katex ->
  containerRef w = Some node ->
  render katex (children p) node
    {| opt_displayMode := displayMode p; throwOnError := false |} = (node', None) ->
  Latex_effect p w =
  (Returned tt,
   {| lpage :=
        {| window_katex := Some katex;
           document_head := document_head (lpage w);
           console := console (lpage w);
           katex_calls :=
             katex_calls (lpage w) ++
             [(children p,
               {| opt_displayMode := displayMode p; throwOnError := false |})] |};
      containerRef := Some node' |}).
Proof.
  intros Hl Hk Hc Hr.
  rewrite (Latex_effect_guard_true p w katex node Hl Hk Hc).
  unfold latex_options. rewrite Hr, Hk. cbn. now rewrite app_nil_r.
Qed.

Lemma render_success_typesets_witness :
  Latex_effect (mkLatexProps "z, \quad W" false true)
    {| lpage := {| window_katex := Some echo_katex; document_head := [];
                   console := []; katex_calls := [] |};
       containerRef := Some (PlainText "z, \quad W") |} =
  (Returned tt,
   {| lpage := {| window_katex := Some echo_katex; document_head := [];
                  console := [];
                  katex_calls := [("z, \quad W", mkRenderOptions false false)] |};
      containerRef := Some (Typeset "z, \quad W") |}).
Proof.
  apply (render_success_typesets echo_katex
           (mkLatexProps "z, \quad W" false true)
           {| lpage := {| window_katex := Some echo_katex; document_head := [];
                          console := []; katex_calls := [] |};
              containerRef := Some (PlainText "z, \quad W") |}
           (PlainText "z, \quad W") (Typeset "z, \quad W"));
    reflexivity.
Defined.

(** * Further properties of the clicks *)

Lemma dispatch_ClickRow_in_range (n : nat) (w : World) :
  (n < 5)%nat ->
  dispatch (ClickRow n) w =
  Some {| page := page w;
          hooks := {| activeStep := Z.of_nat n;
                      isKaTeXLoaded := isKaTeXLoaded (hooks w) |} |}.
Proof.
  intros Hn. destruct (row_rendered (hooks w) n Hn) as [r [Hr Hc]].
  unfold dispatch. now rewrite Hr, Hc, exec_setActiveStep.
Qed.

Lemma dispatch_ClickRow_out_of_range (n : nat) (w : World) :
  (5 <= n)%nat -> dispatch (ClickRow n) w = None.
Proof.
  intros Hn. destruct (dispatch (ClickRow n) w) as [w'|] eqn:Hd; [|reflexivity].
  apply dispatch_ClickRow in Hd. lia.
Qed.

Lemma valid_event_dispatch (e : UIEvent) (w : World) :
  valid_event e = true <-> exists w', dispatch e w = Some w'.
Proof.
  destruct e as [|n]; cbn [valid_event].
  - split; [|reflexivity]. intros _. eexists. apply dispatch_ClickNext.
  - change (List.length steps) with 5%nat. split.
    + intros H. apply Nat.ltb_lt in H. eexists.
      now apply dispatch_ClickRow_in_range.
    + intros [w' Hd]. apply dispatch_ClickRow in Hd. apply Nat.ltb_lt. lia.
Qed.

(** X6: a sequence of clicks runs to its end exactly when every row it
    clicks is one of the rendered rows (position below [steps.length]); the
    world it starts from plays no part. *)
Theorem dispatch_all_defined_iff (es : list UIEvent) (w : World) :
  (exists w', dispatch_all es w = Some w') <-> forallb valid_event es = true.
Proof.
  revert w. induction es as [|e es IH]; intros w; cbn [dispatch_all forallb].
  - split; [reflexivity|]. intros _. now exists w.
  - rewrite Bool.andb_true_iff. split.
    + intros [w' H]. destruct (dispatch e w) as [w1|] eqn:Hd; [|discriminate].
      split.
      * apply (valid_event_dispatch e w). now exists w1.
      * apply (IH w1). now exists w'.
    + intros [He Hes]. apply (valid_event_dispatch e w) in He.
      destruct He as [w1 Hd]. rewrite Hd. now apply IH.
Qed.

(** X7: from a cursor i in 0..4, k clicks on "next" in a row leave the
    cursor at (i + k) mod 5 and everything else as it was. *)
Theorem next_k_times (k : nat) (w : World) :
  0 <= activeStep (hooks w) <= 4 ->
  dispatch_all (repeat ClickNext k) w =
  Some {| page := page w;
          hooks := {| activeStep := (activeStep (hooks w) + Z.of_nat k) mod 5;
                      isKaTeXLoaded := isKaTeXLoaded (hooks w) |} |}.
Proof.
  revert w. induction k as [|k IH]; intros [p [a l]]; cbn [hooks activeStep page isKaTeXLoaded];
    intros Ha.
  - cbn [repeat dispatch_all]. rewrite Z.add_0_r, Z.mod_small by lia. reflexivity.
  - cbn [repeat dispatch_all]. rewrite dispatch_ClickNext.
    cbn [hooks activeStep page isKaTeXLoaded].
    rewrite rem_succ_5 by exact Ha.
    rewrite IH; cbn [hooks activeStep page isKaTeXLoaded].
    + rewrite Zplus_mod_idemp_l. do 3 f_equal. f_equal. lia.
    + pose proof (Z.mod_pos_bound (a + 1) 5). lia.
Qed.

Lemma next_k_times_witness :
  dispatch_all (repeat ClickNext 13) (mkWorld emptyPage (mkHooks 4 true)) =
  Some (mkWorld emptyPage (mkHooks 2 true)).
Proof.
  apply (next_k_times 13 (mkWorld emptyPage (mkHooks 4 true))).
  cbn. lia.
Defined.


(** * Further properties of the view *)

Lemma map_from_Forall {A B : Type} (f : A -> Z -> B) (P : B -> Prop) (l : list A) :
  (forall x i, P (f x i)) -> forall i, Forall P (map_from f i l).
Proof.
  intros Hf. induction l as [|x t IH]; intros i; cbn; constructor; auto.
Qed.

Lemma row_latex_shape (h : Hooks) (r : StepRow) :
  In r (rows (GLMVisualizer h)) ->
  row_latex r =
  {| children := math (row_step r); displayMode := false;
     isLoaded := isKaTeXLoaded h |}.
Proof.
  revert r. apply Forall_forall.
  unfold GLMVisualizer, array_map; cbn [rows].
  apply map_from_Forall. reflexivity.
Qed.

Lemma formulas_isLoaded (h : Hooks) (p : LatexProps) :
  In p (formulas h) -> isLoaded p = isKaTeXLoaded h.
Proof.
  unfold formulas. rewrite in_app_iff, in_map_iff.
  intros [[r [<- Hr]] | Hp].
  - now rewrite (row_latex_shape h r Hr).
  - unfold exposition in Hp. cbn [map In] in Hp.
    repeat (destruct Hp as [<- | Hp]; [reflexivity|]). contradiction.
Qed.

(** With the cursor in 0..4 exactly one row is drawn highlighted, and it is
    the row at the cursor's position. *)
Lemma one_row_highlighted (h : Hooks) :
  0 <= activeStep h <= 4 ->
  exists r,
    highlighted_rows h = [r] /\
    nth_error (rows (GLMVisualizer h)) (Z.to_nat (activeStep h)) = Some r.
Proof.
  destruct h as [a l]. cbn [activeStep]. intros Ha.
  assert (Hcase : a = 0 \/ a = 1 \/ a = 2 \/ a = 3 \/ a = 4) by lia.
  destruct Hcase as [-> | [-> | [-> | [-> | ->]]]];
    eexists; split; reflexivity.
Qed.

(** X10: every [Latex] instance of the component, in the step rows and in
    the exposition column alike, receives the hook's loaded flag; so while
    the flag is false none of them touches its span or calls the
    typesetter, in any world. *)
Theorem formulas_follow_flag (h : Hooks) (p : LatexProps) :
  In p (formulas h) ->
  isLoaded p = isKaTeXLoaded h /\
  (forall lw : LatexWorld,
      isKaTeXLoaded h = false -> Latex_effect p lw = (Returned tt, lw)).
Proof.
  intros Hp. pose proof (formulas_isLoaded h p Hp) as Hl.
  split; [exact Hl|]. intros lw Hf.
  apply Latex_effect_guard_false. unfold latex_guard. now rewrite Hl, Hf.
Qed.

Lemma formulas_follow_flag_witness :
  isLoaded (mkLatexProps "V(\mu)" false false) = isKaTeXLoaded initialHooks /\
  (forall lw : LatexWorld,
      isKaTeXLoaded initialHooks = false ->
      Latex_effect (mkLatexProps "V(\mu)" false false) lw = (Returned tt, lw)).
Proof.
  apply (formulas_follow_flag initialHooks (mkLatexProps "V(\mu)" false false)).
  unfold formulas. apply in_or_app. right. cbn. tauto.
Defined.

(** X11: once the script the loader appended has loaded, the effect of
    every step row's formula calls [katex.render] once, with the step's math
    string, inline mode and [throwOnError: false], whatever was traced
    before. *)
Theorem row_formula_rendered_after_load (impl : KaTeX) (w w1 : World)
    (r : StepRow) (node : Container) :
  exec (scriptLoaded impl katex_script) w = Some w1 ->
  In r (rows (GLMVisualizer (hooks w1))) ->
  katex_calls
    (lpage (snd (Latex_effect (row_latex r)
                   {| lpage := page w1; containerRef := Some node |}))) =
  katex_calls (page w) ++
  [(math (row_step r), {| opt_displayMode := false; throwOnError := false |})].
Proof.
  intros Hload Hr.
  assert (Hw1 : w1 = {| page := {| window_katex := Some impl;
                                   document_head := document_head (page w);
                                   console := console (page w);
                                   katex_calls := katex_calls (page w) |};
                        hooks := {| activeStep := activeStep (hooks w);
                                    isKaTeXLoaded := true |} |}).
  { cbv [exec scriptLoaded bind modify runCallback katex_script onload setIsLoaded
         applySetState] in Hload.
    injection Hload as <-. reflexivity. }
  subst w1. rewrite (row_latex_shape _ r Hr).
  cbn [hooks isKaTeXLoaded page].
  erewrite Latex_effect_guard_true; [reflexivity|reflexivity|reflexivity|reflexivity].
Qed.

Lemma row_formula_rendered_after_load_witness :
  katex_calls
    (lpage (snd (Latex_effect
                   (mkLatexProps "z, \quad W" false true)
                   {| lpage := {| window_katex := Some echo_katex;
                                  document_head := [katex_link; katex_script];
                                  console := []; katex_calls := [] |};
                      containerRef := Some (PlainText "z, \quad W") |}))) =
  [("z, \quad W", {| opt_displayMode := false; throwOnError := false |})].
Proof.
  apply (row_formula_rendered_after_load echo_katex
           (mkWorld (mkPage None [katex_link; katex_script] [] []) (mkHooks 2 false))
           (mkWorld (mkPage (Some echo_katex) [katex_link; katex_script] [] [])
                    (mkHooks 2 true))
           {| key := 3;
              onClick := setActiveStep (NextValue 2);
              highlighted := true;
              row_step := {| id := 3;
                             title := "作動変数 & 重み (Adjust)";
                             icon := mkIcon Scale "w-6 h-6 text-amber-500";
                             desc := "局所的な直線近似のために、ターゲット変数(z)と重み(W)を計算します。";
                             math := "z, \quad W" |};
              row_latex := mkLatexProps "z, \quad W" false true |}
           (PlainText "z, \quad W")).
  - reflexivity.
  - cbn. right. right. left. reflexivity.
Defined.

(** * Further properties of the loader and of the instance's life *)

(** X12: a run of the loader effect never throws and leaves the cursor,
    [window.katex], the console and the trace of typesetter calls as they
    were; the loaded flag becomes true exactly when the library is already
    defined, and is otherwise left alone (it waits for the script's load
    event). *)
Theorem useKaTeX_effect_frame (w : World) :
  exists w',
    exec useKaTeX_effect w = Some w' /\
    activeStep (hooks w') = activeStep (hooks w) /\
    window_katex (page w') = window_katex (page w) /\
    console (page w') = console (page w) /\
    katex_calls (page w') = katex_calls (page w) /\
    isKaTeXLoaded (hooks w') =
      (if truthy (window_katex (page w)) then true else isKaTeXLoaded (hooks w)).
Proof.
  destruct (window_katex (page w)) as [k|] eqn:Hk.
  - eexists. split.
    + apply useKaTeX_effect_present. now rewrite Hk.
    + cbn. rewrite Hk. repeat split.
  - eexists. split.
    + apply useKaTeX_effect_absent. exact Hk.
    + cbn. repeat split.
Qed.

Lemma loader_pairs_snoc (n : nat) :
  loader_pairs n ++ [katex_link; katex_script] = loader_pairs (S n).
Proof.
  induction n as [|n IH]; [reflexivity|].
  cbn [loader_pairs app]. rewrite IH. reflexivity.
Qed.

Lemma In_loader_pairs (n : nat) (el : Element) :
  In el (loader_pairs n) -> el = katex_link \/ el = katex_script.
Proof.
  induction n as [|n IH]; cbn [loader_pairs In]; [contradiction|].
  intros [<- | [<- | H]]; auto.
Qed.

Lemma exec_scriptLoaded_katex_script (impl : KaTeX) (w : World) :
  exec (scriptLoaded impl katex_script) w =
  Some {| page := {| window_katex := Some impl;
                     document_head := document_head (page w);
                     console := console (page w);
                     katex_calls := katex_calls (page w) |};
          hooks := {| activeStep := activeStep (hooks w);
                      isKaTeXLoaded := true |} |}.
Proof. reflexivity. Qed.

(** A script-load event in a head made of loader pairs concerns the pinned
    script element. *)
Lemma life_step_ScriptLoads (impl : KaTeX) (n m : nat) (w w' : World) :
  document_head (page w) = loader_pairs m ->
  life_step (ScriptLoads impl n) w = Some w' ->
  w' = {| page := {| window_katex := Some impl;
                     document_head := document_head (page w);
                     console := console (page w);
                     katex_calls := katex_calls (page w) |};
          hooks := {| activeStep := activeStep (hooks w);
                      isKaTeXLoaded := true |} |}.
Proof.
  intros Hh. cbn [life_step].
  destruct (nth_error (document_head (page w)) n) as [el|] eqn:Hn; [|discriminate].
  apply nth_error_In in Hn. rewrite Hh in Hn.
  apply In_loader_pairs in Hn. destruct Hn as [-> | ->].
  - cbn. discriminate.
  - cbn [tagName katex_script]. cbn [String.eqb Ascii.eqb Bool.eqb].
    rewrite exec_scriptLoaded_katex_script. now intros [= <-].
Qed.

Lemma life_step_invariant (ev : LifeEvent) (w w' : World) :
  life_invariant w -> life_step ev w = Some w' -> life_invariant w'.
Proof.
  intros [Ha [Hf [n Hn]]] Hs. unfold life_invariant.
  destruct ev as [[|j] | | impl j].
  - cbn [life_step] in Hs. rewrite dispatch_ClickNext in Hs. injection Hs as <-.
    cbn [hooks page activeStep isKaTeXLoaded]. split; [|split; [exact Hf|now exists n]].
    rewrite rem_succ_5 by exact Ha.
    pose proof (Z.mod_pos_bound (activeStep (hooks w) + 1) 5). lia.
  - cbn [life_step] in Hs. apply dispatch_ClickRow in Hs. destruct Hs as [Hj ->].
    cbn [hooks page activeStep isKaTeXLoaded]. split; [lia|].
    split; [exact Hf|now exists n].
  - cbn [life_step] in Hs.
    destruct (window_katex (page w)) as [k|] eqn:Hk.
    + rewrite useKaTeX_effect_present in Hs by now rewrite Hk.
      injection Hs as <-. cbn [hooks page activeStep isKaTeXLoaded].
      split; [exact Ha|]. split; [now rewrite Hk | now exists n].
    + rewrite useKaTeX_effect_absent in Hs by exact Hk.
      injection Hs as <-. cbn [hooks page activeStep isKaTeXLoaded document_head window_katex].
      split; [exact Ha|]. split.
      * exact Hf.
      * exists (S n). rewrite Hn. apply loader_pairs_snoc.
  - apply (life_step_ScriptLoads impl j n w w' Hn) in Hs. subst w'.
    cbn [hooks page activeStep isKaTeXLoaded document_head window_katex truthy].
    split; [exact Ha|]. split; [reflexivity|now exists n].
Qed.

Lemma life_reachable_invariant (w : World) :
  life_reachable w -> life_invariant w.
Proof.
  induction 1 as [|w ev w' _ IH Hs].
  - split; [cbn; lia|]. split; [discriminate|]. now exists 0%nat.
  - exact (life_step_invariant ev w w' IH Hs).
Qed.

(** A world in the middle of a life: mounted, script loaded, row 3 clicked. *)
Lemma life_sample :
  life_reachable
    (mkWorld (mkPage (Some echo_katex) [katex_link; katex_script] [] [])
             (mkHooks 3 true)).
Proof.
  apply life_next with
    (w := mkWorld (mkPage (Some echo_katex) [katex_link; katex_script] [] [])
                  (mkHooks 0 true))
    (ev := UserClick (ClickRow 3)); [|reflexivity].
  apply life_next with
    (w := mkWorld (mkPage None [katex_link; katex_script] [] []) (mkHooks 0 false))
    (ev := ScriptLoads echo_katex 1); [|reflexivity].
  apply life_next with (w := initialWorld emptyPage) (ev := LoaderRuns);
    [|reflexivity].
  apply life_start.
Defined.



(** X14: through the same interleavings the head of the document holds
    nothing but whole copies of the loader's pair, stylesheet link then
    script, in this order; so each address is fetched by as many elements
    as the other. *)
Theorem head_is_loader_pairs (w : World) :
  life_reachable w ->
  exists n,
    document_head (page w) = loader_pairs n /\
    loads_of katex_css_href (page w) = n /\
    loads_of katex_js_src (page w) = n.
Proof.
  intros Hr. apply life_reachable_invariant in Hr.
  destruct Hr as [_ [_ [n Hn]]]. exists n. split; [exact Hn|].
  unfold loads_of. rewrite Hn. clear Hn.
  induction n as [|n [IH1 IH2]]; [split; reflexivity|].
  split.
  - change (loader_pairs (S n)) with (katex_link :: katex_script :: loader_pairs n).
    change (filter (fetches katex_css_href) (katex_link :: katex_script :: loader_pairs n))
      with (katex_link :: filter (fetches katex_css_href) (loader_pairs n)).
    cbn [List.length]. now rewrite IH1.
  - change (loader_pairs (S n)) with (katex_link :: katex_script :: loader_pairs n).
    change (filter (fetches katex_js_src) (katex_link :: katex_script :: loader_pairs n))
      with (katex_script :: filter (fetches katex_js_src) (loader_pairs n)).
    cbn [List.length]. now rewrite IH2.
Qed.

Lemma head_is_loader_pairs_witness :
  exists n,
    document_head
      (page (mkWorld (mkPage (Some echo_katex) [katex_link; katex_script] [] [])
                     (mkHooks 3 true))) = loader_pairs n /\
    loads_of katex_css_href
      (page (mkWorld (mkPage (Some echo_katex) [katex_link; katex_script] [] [])
                     (mkHooks 3 true))) = n /\
    loads_of katex_js_src
      (page (mkWorld (mkPage (Some echo_katex) [katex_link; katex_script] [] [])
                     (mkHooks 3 true))) = n.
Proof.
  apply (head_is_loader_pairs
           (mkWorld (mkPage (Some echo_katex) [katex_link; katex_script] [] [])
                    (mkHooks 3 true))).
  exact life_sample.
Defined.

(** X15: in such a life, once [window.katex] is defined no later event
    adds an element to the head or undefines the library, and no event at
    all ever resets a loaded flag that is true. *)
Theorem library_and_flag_are_stable (ev : LifeEvent) (w w' : World) :
  life_reachable w ->
  life_step ev w = Some w' ->
  (truthy (window_katex (page w)) = true ->
     truthy (window_katex (page w')) = true /\
     document_head (page w') = document_head (page w)) /\
  (isKaTeXLoaded (hooks w) = true -> isKaTeXLoaded (hooks w') = true).
Proof.
  intros Hr Hs. apply life_reachable_invariant in Hr.
  destruct Hr as [_ [Hf [n Hn]]]. destruct ev as [[|j] | | impl j].
  - cbn [life_step] in Hs. rewrite dispatch_ClickNext in Hs. injection Hs as <-.
    cbn [hooks page isKaTeXLoaded]. split; auto.
  - cbn [life_step] in Hs. apply dispatch_ClickRow in Hs. destruct Hs as [_ ->].
    cbn [hooks page isKaTeXLoaded]. split; auto.
  - cbn [life_step] in Hs.
    destruct (window_katex (page w)) as [k|] eqn:Hk.
    + rewrite useKaTeX_effect_present in Hs by now rewrite Hk.
      injection Hs as <-. cbn [hooks page isKaTeXLoaded]. rewrite Hk. split; auto.
    + rewrite useKaTeX_effect_absent in Hs by exact Hk.
      injection Hs as <-. cbn [hooks page isKaTeXLoaded truthy]. split; [discriminate|auto].
  - apply (life_step_ScriptLoads impl j n w w' Hn) in Hs. subst w'.
    cbn [hooks page isKaTeXLoaded document_head window_katex truthy]. split; auto.
Qed.

Lemma library_and_flag_are_stable_witness :
  (truthy (window_katex (mkPage (Some echo_katex) [katex_link; katex_script] [] [])) = true ->
     truthy (window_katex
               (page (mkWorld (mkPage (Some echo_katex) [katex_link; katex_script] [] [])
                              (mkHooks 3 true)))) = true /\
     document_head
       (page (mkWorld (mkPage (Some echo_katex) [katex_link; katex_script] [] [])
                      (mkHooks 3 true))) = [katex_link; katex_script]) /\
  (isKaTeXLoaded (mkHooks 3 true) = true ->
     isKaTeXLoaded
       (hooks (mkWorld (mkPage (Some echo_katex) [katex_link; katex_script] [] [])
                       (mkHooks 3 true))) = true).
Proof.
  apply (library_and_flag_are_stable LoaderRuns
           (mkWorld (mkPage (Some echo_katex) [katex_link; katex_script] [] [])
                    (mkHooks 3 true))
           (mkWorld (mkPage (Some echo_katex) [katex_link; katex_script] [] [])
                    (mkHooks 3 true))).
  - exact life_sample.
  - reflexivity.
Defined.

(** X9: through any interleaving of clicks, runs of the loader effect and
    script-load events from the freshly mounted instance on an empty page,
    the cursor stays in 0..4 and exactly one step row is drawn highlighted,
    the one at the cursor's position. *)
Theorem life_one_row_highlighted (w : World) :
  life_reachable w ->
  0 <= activeStep (hooks w) <= 4 /\
  exists r,
    highlighted_rows (hooks w) = [r] /\
    nth_error (rows (GLMVisualizer (hooks w)))
              (Z.to_nat (activeStep (hooks w))) = Some r.
Proof.
  intros Hr. apply life_reachable_invariant in Hr. destruct Hr as [Ha _].
  split; [exact Ha|]. now apply one_row_highlighted.
Qed.

Lemma life_one_row_highlighted_witness :
  0 <= activeStep (hooks (mkWorld (mkPage (Some echo_katex) [katex_link; katex_script] [] [])
                                  (mkHooks 3 true))) <= 4 /\
  exists r,
    highlighted_rows
      (hooks (mkWorld (mkPage (Some echo_katex) [katex_link; katex_script] [] [])
                      (mkHooks 3 true))) = [r] /\
    nth_error
      (rows (GLMVisualizer
               (hooks (mkWorld (mkPage (Some echo_katex) [katex_link; katex_script] [] [])
                               (mkHooks 3 true)))))
      (Z.to_nat
         (activeStep
            (hooks (mkWorld (mkPage (Some echo_katex) [katex_link; katex_script] [] [])
                            (mkHooks 3 true))))) = Some r.
Proof.
  apply (life_one_row_highlighted
           (mkWorld (mkPage (Some echo_katex) [katex_link; katex_script] [] [])
                    (mkHooks 3 true))).
  exact life_sample.
Defined.
